(** * Configuration and key resolution of the mangata finalizer operator

    Shallow embedding of [src/mangata-finalizer/src/cli.rs]: the parsed
    command line [CliArgs] with its two key groups, the start-up check
    [CliArgs::build], the key resolver [get_keystore] and the serde
    serialization derived for [CliArgs]. *)

From Stdlib Require Import String List ZArith Bool Lia.
Import ListNotations.
Open Scope string_scope.
Open Scope Z_scope.

(** ** Data model *)

(** [PathBuf] is modelled as the string of the path. *)
Definition PathBuf := string.

(** [ethers::types::Address] (H160) as its 160-bit numeric value. *)
Definition Address := Z.

(** [Chain::AnvilHardhat as u64]. *)
Definition ANVIL_HARDHAT : Z := 31337.

Record EcdsaKey := mkEcdsaKey {
  ecdsa_key_file : option PathBuf;
  ecdsa_key_json : option string;
  ecdsa_ephemeral_key : bool
}.

Record BlsKey := mkBlsKey {
  bls_key_file : option PathBuf;
  bls_key_json : option string;
  bls_ephemeral_key : bool
}.

Inductive Commands :=
| OptInAvs
| OptOutAvs
| PrintStatus
| Testnet (stake : Z).

Record CliArgs := mkCliArgs {
  avs_service_manager_addr : Address;
  bls_compendium_addr : Address;
  bls_operator_state_retriever_addr : Address;
  substrate_rpc_url : string;
  eth_rpc_url : string;
  eth_ws_url : string;
  avs_rpc_url : string;
  chain_id : Z;
  ecdsa_key : EcdsaKey;
  ecdsa_key_password : option string;
  bls_key : BlsKey;
  bls_key_password : option string;
  register_at_startup : bool;
  command : option Commands
}.

(** ** Process effects

    A start-up step either returns a value, terminates the process with an
    exit code ([clap::Error::exit]), or panics ([panic!]).  Along the way it
    leaves a trace of observable events: log lines, diagnostics on standard
    error, and calls into the keystore provider. *)

(** The calls [get_keystore] makes into [EncodedKeystore]. *)
Inductive KeystoreCall :=
| CallRandom
| CallFromPath (path : PathBuf) (password : option string)
| CallFromString (content : string) (password : option string).

Inductive Event :=
| EvWarn (msg : string)
| EvStderr (msg : string)
| EvStdout (msg : string)
| EvKeystore (c : KeystoreCall).

Inductive Status (A : Type) :=
| Done (a : A)
| Exited (code : Z)
| Panicked (msg : string).
Arguments Done {A} a.
Arguments Exited {A} code.
Arguments Panicked {A} msg.

Definition Proc (A : Type) : Type := list Event * Status A.

Definition ret {A} (a : A) : Proc A := ([], Done a).

Definition bind {A B} (m : Proc A) (k : A -> Proc B) : Proc B :=
  let '(t, s) := m in
  match s with
  | Done a => let '(t', s') := k a in (List.app t t', s')
  | Exited c => (t, Exited c)
  | Panicked msg => (t, Panicked msg)
  end.

Notation "x <- m ;; k" := (bind m (fun x => k))
  (at level 61, m at next level, right associativity).
Notation "m ;;; k" := (bind m (fun _ => k))
  (at level 61, right associativity).

Definition emit (e : Event) : Proc unit := ([e], Done tt).
Definition exit {A} (code : Z) : Proc A := ([], Exited code).
Definition panic {A} (msg : string) : Proc A := ([], Panicked msg).

(** clap's exit code for usage errors ([clap::error::USAGE_CODE]). *)
Definition USAGE_CODE : Z := 2.

(** [cmd.error(kind, msg).exit()]: the formatted error goes to standard
    error and the process exits with the usage code. *)
Definition clap_error_exit {A} (msg : string) : Proc A :=
  emit (EvStderr ("error: " ++ msg)) ;;; exit USAGE_CODE.

(** Whether a trace contains a call into the keystore provider. *)
Definition is_keystore_event (e : Event) : bool :=
  match e with EvKeystore _ => true | _ => false end.

Definition no_keystore_call (t : list Event) : Prop :=
  forall e, In e t -> is_keystore_event e = false.

(** ** Key resolution *)

Section Resolver.

(** The keystore provider [EncodedKeystore] is an external collaborator:
    [random()], [from_path(path, password)], [from_string(content, password)],
    each fallible. *)
Variable Keystore KeystoreError : Type.
Variable ks_random : Keystore + KeystoreError.
Variable ks_from_path : PathBuf -> option string -> Keystore + KeystoreError.
Variable ks_from_string : string -> option string -> Keystore + KeystoreError.

Definition run_call (c : KeystoreCall) : Keystore + KeystoreError :=
  match c with
  | CallRandom => ks_random
  | CallFromPath p pw => ks_from_path p pw
  | CallFromString s pw => ks_from_string s pw
  end.

Definition call_provider (c : KeystoreCall) : Proc (Keystore + KeystoreError) :=
  emit (EvKeystore c) ;;; ret (run_call c).

(** [fn get_keystore(path, content, is_random, password)]: the [match] on
    [(path, content, is_random)]; the [?] followed by [Ok(keystore)] returns
    the provider's result unchanged. *)
Definition get_keystore (path : option PathBuf) (content : option string)
    (is_random : bool) (password : option string)
    : Proc (Keystore + KeystoreError) :=
  match path, content, is_random with
  | _, _, true => call_provider CallRandom
  | Some path, _, _ => call_provider (CallFromPath path password)
  | _, Some content, _ => call_provider (CallFromString content password)
  | _, _, _ => panic "one of the key args must be set"
  end.

Definition get_ecdsa_keystore (self : CliArgs) : Proc (Keystore + KeystoreError) :=
  get_keystore (ecdsa_key_file (ecdsa_key self)) (ecdsa_key_json (ecdsa_key self))
    (ecdsa_ephemeral_key (ecdsa_key self)) (ecdsa_key_password self).

Definition get_bls_keystore (self : CliArgs) : Proc (Keystore + KeystoreError) :=
  get_keystore (bls_key_file (bls_key self)) (bls_key_json (bls_key self))
    (bls_ephemeral_key (bls_key self)) (bls_key_password self).

(** The resolver as §4.2 of the spec words it: ephemeral first, then the
    file path, then the inline content, otherwise the internal-consistency
    failure. *)
Definition resolve_keystore_spec (path : option PathBuf) (content : option string)
    (is_random : bool) (password : option string)
    : Proc (Keystore + KeystoreError) :=
  if is_random then call_provider CallRandom
  else match path with
       | Some p => call_provider (CallFromPath p password)
       | None =>
           match content with
           | Some c => call_provider (CallFromString c password)
           | None => panic "one of the key args must be set"
           end
       end.

End Resolver.

Arguments run_call {Keystore KeystoreError} ks_random ks_from_path ks_from_string c.
Arguments call_provider {Keystore KeystoreError} ks_random ks_from_path ks_from_string c.
Arguments get_keystore {Keystore KeystoreError} ks_random ks_from_path ks_from_string
  path content is_random password.
Arguments get_ecdsa_keystore {Keystore KeystoreError} ks_random ks_from_path ks_from_string self.
Arguments get_bls_keystore {Keystore KeystoreError} ks_random ks_from_path ks_from_string self.
Arguments resolve_keystore_spec {Keystore KeystoreError} ks_random ks_from_path ks_from_string
  path content is_random password.

(** ** Command-line parsing

    [CliArgs::parse()] is generated by clap's derive.  The typed fields are
    taken as supplied, already converted by their value parsers (from argv or
    from the environment variable of the same name).  What the source adds
    on top is the key-group declaration
    [#[group(required = true, multiple = false)]] on [EcdsaKey] and [BlsKey],
    and what clap always adds is the handling of [--help] and [--version]. *)

(** Number of active key sources among [get_keystore]'s arguments: a path,
    an inline key, a set ephemeral flag. *)
Definition sources_count (file : option PathBuf) (json : option string)
    (ephemeral : bool) : nat :=
  ((if file then 1 else 0) + (if json then 1 else 0) + (if ephemeral then 1 else 0))%nat.

Definition ecdsa_sources (k : EcdsaKey) : nat :=
  sources_count (ecdsa_key_file k) (ecdsa_key_json k) (ecdsa_ephemeral_key k).

Definition bls_sources (k : BlsKey) : nat :=
  sources_count (bls_key_file k) (bls_key_json k) (bls_ephemeral_key k).

(** How the three arguments of one key group reached clap: [None] when the
    argument was not supplied, [Some v] when it was supplied with value [v]
    (on the command line, or through its environment variable).  The flag
    [--ecdsa-ephemeral-key] on the command line is supplied with value
    [true]; through the environment variable [ECDSA_EPHEMERAL_KEY] it is
    supplied with the boolean the variable holds, [false] included. *)
Record RawKeyGroup := mkRawKeyGroup {
  raw_key_file : option PathBuf;
  raw_key_json : option string;
  raw_ephemeral_key : option bool
}.

(** [--help] / [-h] / [help], [--version] / [-V] on the command line. *)
Inductive MetaFlag := NoMeta | HelpFlag | VersionFlag.

(** What clap receives: the value of every argument, the two key groups as
    supplied, and whether help or version was asked for. *)
Record RawArgs := mkRawArgs {
  raw_avs_service_manager_addr : Address;
  raw_bls_compendium_addr : Address;
  raw_bls_operator_state_retriever_addr : Address;
  raw_substrate_rpc_url : string;
  raw_eth_rpc_url : string;
  raw_eth_ws_url : string;
  raw_avs_rpc_url : string;
  raw_chain_id : Z;
  raw_ecdsa_key : RawKeyGroup;
  raw_ecdsa_key_password : option string;
  raw_bls_key : RawKeyGroup;
  raw_bls_key_password : option string;
  raw_register_at_startup : bool;
  raw_command : option Commands;
  raw_meta : MetaFlag
}.

(** Number of supplied arguments of a key group, as clap's group validation
    counts them: every explicitly supplied argument, whatever its value. *)
Definition supplied_count (g : RawKeyGroup) : nat :=
  ((if raw_key_file g then 1 else 0) + (if raw_key_json g then 1 else 0)
   + (if raw_ephemeral_key g then 1 else 0))%nat.

(** The value of a [bool] flag field: the supplied value, [false] when the
    flag was not supplied. *)
Definition flag_value (o : option bool) : bool :=
  match o with Some b => b | None => false end.

Definition parse_EcdsaKey (g : RawKeyGroup) : EcdsaKey :=
  mkEcdsaKey (raw_key_file g) (raw_key_json g) (flag_value (raw_ephemeral_key g)).

Definition parse_BlsKey (g : RawKeyGroup) : BlsKey :=
  mkBlsKey (raw_key_file g) (raw_key_json g) (flag_value (raw_ephemeral_key g)).

(** The [CliArgs] value clap fills in from the supplied arguments. *)
Definition args_of (raw : RawArgs) : CliArgs :=
  mkCliArgs (raw_avs_service_manager_addr raw) (raw_bls_compendium_addr raw)
    (raw_bls_operator_state_retriever_addr raw) (raw_substrate_rpc_url raw)
    (raw_eth_rpc_url raw) (raw_eth_ws_url raw) (raw_avs_rpc_url raw)
    (raw_chain_id raw) (parse_EcdsaKey (raw_ecdsa_key raw)) (raw_ecdsa_key_password raw)
    (parse_BlsKey (raw_bls_key raw)) (raw_bls_key_password raw)
    (raw_register_at_startup raw) (raw_command raw).

(** clap's validation of one argument group: [required = true] rejects a
    group none of whose arguments was supplied, [multiple = false] rejects a
    group with more than one supplied argument.  Either failure is a usage
    error that terminates the process. *)
Definition check_group (group : string) (n : nat) : Proc unit :=
  match n with
  | O => clap_error_exit
           ("the following required arguments were not provided: <" ++ group ++ ">")
  | 1%nat => ret tt
  | _ => clap_error_exit ("an argument of the group <" ++ group ++ "> cannot be used with another one")
  end.

(** clap's exit code after printing help or version ([clap::error::SUCCESS_CODE]). *)
Definition SUCCESS_CODE : Z := 0.

(** [CliArgs::parse()]: help and version are printed to standard output and
    end the process with success before any validation; otherwise both key
    groups are validated and the arguments returned. *)
Definition cli_parse (raw : RawArgs) : Proc CliArgs :=
  match raw_meta raw with
  | HelpFlag => emit (EvStdout "<usage and options of the operator>") ;;; exit SUCCESS_CODE
  | VersionFlag => emit (EvStdout "<name and version of the operator>") ;;; exit SUCCESS_CODE
  | NoMeta =>
      check_group "EcdsaKey" (supplied_count (raw_ecdsa_key raw)) ;;;
      check_group "BlsKey" (supplied_count (raw_bls_key raw)) ;;;
      ret (args_of raw)
  end.

(** ** [CliArgs::build] *)

Definition is_testnet (c : option Commands) : bool :=
  match c with Some (Testnet _) => true | _ => false end.

(** The checks [build] runs on the parsed arguments. *)
Definition build_checks (args : CliArgs) : Proc unit :=
  if negb (chain_id args =? ANVIL_HARDHAT) then
    (if is_testnet (command args) then
       clap_error_exit
         "testnet command is only available with anvil testnet `--chain-id=31337`"
     else ret tt) ;;;
    (if ecdsa_ephemeral_key (ecdsa_key args) || bls_ephemeral_key (bls_key args) then
       emit (EvWarn "!!! Runing operator with epehemeral keys !!!")
     else ret tt)
  else ret tt.

Definition build (raw : RawArgs) : Proc CliArgs :=
  args <- cli_parse raw ;;
  build_checks args ;;;
  ret args.

(** ** Serialization ([#[derive(Serialize)]])

    Values of serde's data model, as the derived [Serialize] impls hand them
    to a serializer. *)
#[local] Set Warnings "-register-all".
Inductive SerValue :=
| SBool (b : bool)
| SU32 (n : Z)
| SU64 (n : Z)
| SStr (s : string)
| SAddress (a : Address)
| SSome (v : SerValue)
| SUnitVariant (enum variant : string)
| SStructVariant (enum variant : string) (fields : list (string * SerValue))
| SStruct (name : string) (fields : list (string * SerValue)).

(** A field with [skip_serializing_if = "Option::is_none"]. *)
Definition ser_opt_field {A} (name : string) (f : A -> SerValue) (o : option A)
    : list (string * SerValue) :=
  match o with
  | Some v => [(name, SSome (f v))]
  | None => []
  end.

(** [ecdsa_key_json] carries [#[serde(skip)]]. *)
Definition serialize_EcdsaKey (k : EcdsaKey) : SerValue :=
  SStruct "EcdsaKey"
    (ser_opt_field "ecdsa_key_file" SStr (ecdsa_key_file k) ++
     [("ecdsa_ephemeral_key", SBool (ecdsa_ephemeral_key k))]).

(** [bls_key_json] carries [#[serde(skip)]]. *)
Definition serialize_BlsKey (k : BlsKey) : SerValue :=
  SStruct "BlsKey"
    (ser_opt_field "bls_key_file" SStr (bls_key_file k) ++
     [("bls_ephemeral_key", SBool (bls_ephemeral_key k))]).

Definition serialize_Commands (c : Commands) : SerValue :=
  match c with
  | OptInAvs => SUnitVariant "Commands" "OptInAvs"
  | OptOutAvs => SUnitVariant "Commands" "OptOutAvs"
  | PrintStatus => SUnitVariant "Commands" "PrintStatus"
  | Testnet stake => SStructVariant "Commands" "Testnet" [("stake", SU32 stake)]
  end.

(** [ecdsa_key_password] and [bls_key_password] carry [#[serde(skip)]];
    [command] is skipped when [None]. *)
Definition serialize_CliArgs (a : CliArgs) : SerValue :=
  SStruct "CliArgs"
    ([("avs_service_manager_addr", SAddress (avs_service_manager_addr a));
      ("bls_compendium_addr", SAddress (bls_compendium_addr a));
      ("bls_operator_state_retriever_addr", SAddress (bls_operator_state_retriever_addr a));
      ("substrate_rpc_url", SStr (substrate_rpc_url a));
      ("eth_rpc_url", SStr (eth_rpc_url a));
      ("eth_ws_url", SStr (eth_ws_url a));
      ("avs_rpc_url", SStr (avs_rpc_url a));
      ("chain_id", SU64 (chain_id a));
      ("ecdsa_key", serialize_EcdsaKey (ecdsa_key a));
      ("bls_key", serialize_BlsKey (bls_key a));
      ("register_at_startup", SBool (register_at_startup a))] ++
     ser_opt_field "command" serialize_Commands (command a)).

(** Record updates used to compare configurations. *)
Definition with_passwords (a : CliArgs) (ecdsa_pw bls_pw : option string) : CliArgs :=
  mkCliArgs (avs_service_manager_addr a) (bls_compendium_addr a)
    (bls_operator_state_retriever_addr a) (substrate_rpc_url a) (eth_rpc_url a)
    (eth_ws_url a) (avs_rpc_url a) (chain_id a) (ecdsa_key a) ecdsa_pw
    (bls_key a) bls_pw (register_at_startup a) (command a).

Definition with_key_json (a : CliArgs) (ecdsa_json bls_json : option string) : CliArgs :=
  mkCliArgs (avs_service_manager_addr a) (bls_compendium_addr a)
    (bls_operator_state_retriever_addr a) (substrate_rpc_url a) (eth_rpc_url a)
    (eth_ws_url a) (avs_rpc_url a) (chain_id a)
    (mkEcdsaKey (ecdsa_key_file (ecdsa_key a)) ecdsa_json (ecdsa_ephemeral_key (ecdsa_key a)))
    (ecdsa_key_password a)
    (mkBlsKey (bls_key_file (bls_key a)) bls_json (bls_ephemeral_key (bls_key a)))
    (bls_key_password a) (register_at_startup a) (command a).

(** ** Concrete inputs *)

(** A stub keystore provider: keystores are named by how they were made. *)
Inductive StubError := Decrypt | Io | Parse.
Definition stub_random : string + StubError := inl "random".
Definition stub_from_path (p : PathBuf) (pw : option string) : string + StubError :=
  match pw with Some "secret" => inl ("file:" ++ p) | _ => inr Decrypt end.
Definition stub_from_string (s : string) (pw : option string) : string + StubError :=
  match pw with Some "secret" => inl ("json:" ++ s) | _ => inr Decrypt end.

Definition sample_raw (chain : Z) (eg bg : RawKeyGroup) (cmd : option Commands)
    (meta : MetaFlag) : RawArgs :=
  mkRawArgs 1 2 3 "ws://substrate" "http://eth" "ws://eth" "http://avs" chain
    eg (Some "secret") bg (Some "secret") false cmd meta.

(** [--<key>-key-file <p>] alone. *)
Definition file_group (p : PathBuf) : RawKeyGroup := mkRawKeyGroup (Some p) None None.
(** [--<key>-ephemeral-key] alone. *)
Definition ephemeral_group : RawKeyGroup := mkRawKeyGroup None None (Some true).
(** Only the environment variable [<KEY>_EPHEMERAL_KEY=false]. *)
Definition env_false_group : RawKeyGroup := mkRawKeyGroup None None (Some false).


(** ** Contract bindings: [StrategyManagerMockCalls]

    Shallow embedding of the call enum of
    [src/avs-finalizer/bindings/src/strategy_manager_mock.rs] and of its
    [AbiEncode] / [AbiDecode] impls.  Each variant wraps the input container
    of one contract function; the derive [EthCall] gives each container the
    4-byte selector of its signature (the first four bytes of its keccak256
    hash, listed in the container's doc comment), an [encode] that writes the
    selector followed by the ABI encoding of the fields, and a [decode] that
    rejects data shorter than four bytes or starting with another selector
    ([AbiError::WrongSelector]) and otherwise ABI-decodes the rest.  The
    ABI coding of the fields themselves belongs to [ethers] and is a
    parameter here.  Bytes are modelled as [Z] values in [0, 255]. *)

(** The variants of [StrategyManagerMockCalls], in declaration order. *)
Inductive CallKind :=
| AddShares
| AddStrategiesToDepositWhitelist
| BeaconChainETHStrategy
| CalculateWithdrawalRoot
| CumulativeWithdrawalsQueued
| Delegation
| DepositBeaconChainETH
| DepositIntoStrategy
| DepositIntoStrategyWithSignature
| EigenPodManager
| GetDeposits
| MigrateQueuedWithdrawal
| Owner
| Pause
| PauseAll
| PausedWithIndex
| Paused
| PauserRegistry
| RecordBeaconChainETHBalanceUpdate
| RemoveShares
| RemoveStrategiesFromDepositWhitelist
| RenounceOwnership
| SetAddresses
| SetDeposits
| SetPauserRegistry
| SetStakerStrategyListLengthReturnValue
| SharesToReturn
| Slasher
| StakerStrategyListLength
| StakerStrategyListLengthReturnValue
| StakerStrategyShares
| StakerStrats
| StrategiesToReturn
| StrategyWhitelister
| TransferOwnership
| Unpause
| WithdrawSharesAsTokens.

(** [<XCall as EthCall>::selector()] for each variant's container. *)
Definition selector (k : CallKind) : Z :=
  match k with
  | AddShares => 0x50ff7225 (* addShares(address,address,uint256) *)
  | AddStrategiesToDepositWhitelist => 0x5de08ff2 (* addStrategiesToDepositWhitelist(address[]) *)
  | BeaconChainETHStrategy => 0x9104c319 (* beaconChainETHStrategy() *)
  | CalculateWithdrawalRoot => 0xb43b514b (* calculateWithdrawalRoot((address[],uint256[],address,(address,uint96),uint32,address)) *)
  | CumulativeWithdrawalsQueued => 0xa1788484 (* cumulativeWithdrawalsQueued(address) *)
  | Delegation => 0xdf5cf723 (* delegation() *)
  | DepositBeaconChainETH => 0x9f00fa24 (* depositBeaconChainETH(address,uint256) *)
  | DepositIntoStrategy => 0xe7a050aa (* depositIntoStrategy(address,address,uint256) *)
  | DepositIntoStrategyWithSignature => 0x32e89ace (* depositIntoStrategyWithSignature(address,address,uint256,address,uint256,bytes) *)
  | EigenPodManager => 0x4665bcda (* eigenPodManager() *)
  | GetDeposits => 0x94f649dd (* getDeposits(address) *)
  | MigrateQueuedWithdrawal => 0xcd293f6f (* migrateQueuedWithdrawal((address[],uint256[],address,(address,uint96),uint32,address)) *)
  | Owner => 0x8da5cb5b (* owner() *)
  | Pause => 0x136439dd (* pause(uint256) *)
  | PauseAll => 0x595c6a67 (* pauseAll() *)
  | PausedWithIndex => 0x5ac86ab7 (* paused(uint8) *)
  | Paused => 0x5c975abb (* paused() *)
  | PauserRegistry => 0x886f1195 (* pauserRegistry() *)
  | RecordBeaconChainETHBalanceUpdate => 0xa1ca780b (* recordBeaconChainETHBalanceUpdate(address,uint256,int256) *)
  | RemoveShares => 0x8c80d4e5 (* removeShares(address,address,uint256) *)
  | RemoveStrategiesFromDepositWhitelist => 0xb5d8b5b8 (* removeStrategiesFromDepositWhitelist(address[]) *)
  | RenounceOwnership => 0x715018a6 (* renounceOwnership() *)
  | SetAddresses => 0x363bf964 (* setAddresses(address,address,address) *)
  | SetDeposits => 0xc73b42be (* setDeposits(address[],uint256[]) *)
  | SetPauserRegistry => 0x10d67a2f (* setPauserRegistry(address) *)
  | SetStakerStrategyListLengthReturnValue => 0x9a9519e0 (* setStakerStrategyListLengthReturnValue(uint256) *)
  | SharesToReturn => 0xcd474c8a (* sharesToReturn(uint256) *)
  | Slasher => 0xb1344271 (* slasher() *)
  | StakerStrategyListLength => 0x8b8aac3c (* stakerStrategyListLength(address) *)
  | StakerStrategyListLengthReturnValue => 0x01f820b2 (* stakerStrategyListLengthReturnValue() *)
  | StakerStrategyShares => 0x7a7e0d92 (* stakerStrategyShares(address,address) *)
  | StakerStrats => 0x0d3908f4 (* stakerStrats(address) *)
  | StrategiesToReturn => 0x7ab801d1 (* strategiesToReturn(uint256) *)
  | StrategyWhitelister => 0x967fc0d2 (* strategyWhitelister() *)
  | TransferOwnership => 0xf2fde38b (* transferOwnership(address) *)
  | Unpause => 0xfabc1cbc (* unpause(uint256) *)
  | WithdrawSharesAsTokens => 0xc608c7f3 (* withdrawSharesAsTokens(address,address,uint256,address) *)
  end.

(** The order in which [StrategyManagerMockCalls::decode] tries the variants. *)
Definition decode_order : list CallKind :=
  [ AddShares;
    AddStrategiesToDepositWhitelist;
    BeaconChainETHStrategy;
    CalculateWithdrawalRoot;
    CumulativeWithdrawalsQueued;
    Delegation;
    DepositBeaconChainETH;
    DepositIntoStrategy;
    DepositIntoStrategyWithSignature;
    EigenPodManager;
    GetDeposits;
    MigrateQueuedWithdrawal;
    Owner;
    Pause;
    PauseAll;
    PausedWithIndex;
    Paused;
    PauserRegistry;
    RecordBeaconChainETHBalanceUpdate;
    RemoveShares;
    RemoveStrategiesFromDepositWhitelist;
    RenounceOwnership;
    SetAddresses;
    SetDeposits;
    SetPauserRegistry;
    SetStakerStrategyListLengthReturnValue;
    SharesToReturn;
    Slasher;
    StakerStrategyListLength;
    StakerStrategyListLengthReturnValue;
    StakerStrategyShares;
    StakerStrats;
    StrategiesToReturn;
    StrategyWhitelister;
    TransferOwnership;
    Unpause;
    WithdrawSharesAsTokens ].

(** The selector as the four bytes [EthCall::selector()] returns, most
    significant first. *)
Definition selector_bytes (k : CallKind) : list Z :=
  [Z.land (Z.shiftr (selector k) 24) 255; Z.land (Z.shiftr (selector k) 16) 255;
   Z.land (Z.shiftr (selector k) 8) 255; Z.land (selector k) 255].

(** [ethers::core::abi::Error::InvalidData], the error of the enum decoder. *)
Inductive AbiError := InvalidData.

Section CallCodec.

(** The fields of each variant's container, and their ABI coding by
    [ethers] ([abi::encode] of the tokens, and [abi::decode] followed by
    [from_token]). *)
Variable CallArgs : CallKind -> Type.
Variable abi_encode_args : forall k, CallArgs k -> list Z.
Variable abi_decode_args : forall k, list Z -> option (CallArgs k).

(** A value of [StrategyManagerMockCalls]: a variant and its container. *)
Definition Calls : Type := sigT CallArgs.

(** [<XCall as AbiEncode>::encode]: the selector, then the arguments. *)
Definition call_encode (k : CallKind) (a : CallArgs k) : list Z :=
  selector_bytes k ++ abi_encode_args k a.

(** [<XCall as AbiDecode>::decode]; [None] stands for its [Err]. *)
Definition call_decode (k : CallKind) (data : list Z) : option (CallArgs k) :=
  if Nat.ltb (length data) 4 then None
  else if list_eq_dec Z.eq_dec (firstn 4 data) (selector_bytes k)
       then abi_decode_args k (skipn 4 data)
       else None.

(** The chain of [if let Ok(decoded) = ... { return Ok(...) }] tests. *)
Fixpoint decode_first (ks : list CallKind) (data : list Z) : Calls + AbiError :=
  match ks with
  | [] => inr InvalidData
  | k :: ks' =>
      match call_decode k data with
      | Some a => inl (existT _ k a)
      | None => decode_first ks' data
      end
  end.

(** [<StrategyManagerMockCalls as AbiDecode>::decode]. *)
Definition calls_decode (data : list Z) : Calls + AbiError :=
  decode_first decode_order data.

(** [<StrategyManagerMockCalls as AbiEncode>::encode]: the match that
    encodes the wrapped container. *)
Definition calls_encode (c : Calls) : list Z := call_encode (projT1 c) (projT2 c).

End CallCodec.

Arguments Calls CallArgs : clear implicits.
Arguments call_encode {CallArgs} abi_encode_args k a.
Arguments call_decode {CallArgs} abi_decode_args k data.
Arguments decode_first {CallArgs} abi_decode_args ks data.
Arguments calls_decode {CallArgs} abi_decode_args data.
Arguments calls_encode {CallArgs} abi_encode_args c.

(** ** Sanity checks on concrete inputs *)

Example stub_file_key :
  get_keystore stub_random stub_from_path stub_from_string
    (Some "/k.json") (Some "blob") false (Some "secret")
  = ([EvKeystore (CallFromPath "/k.json" (Some "secret"))], Done (inl "file:/k.json")).
Proof. reflexivity. Qed.

Example build_anvil_testnet :
  build (sample_raw 31337 ephemeral_group (file_group "/b") (Some (Testnet 100)) NoMeta)
  = ([], Done (args_of (sample_raw 31337 ephemeral_group (file_group "/b")
                          (Some (Testnet 100)) NoMeta))).
Proof. reflexivity. Qed.

Example build_two_sources :
  snd (build (sample_raw 1 (mkRawKeyGroup (Some "/k") (Some "blob") None) (file_group "/b")
                None NoMeta))
  = Exited USAGE_CODE.
Proof. reflexivity. Qed.

Example build_help :
  build (sample_raw 1 (mkRawKeyGroup None None None) (file_group "/b") None HelpFlag)
  = ([EvStdout "<usage and options of the operator>"], Exited SUCCESS_CODE).
Proof. reflexivity. Qed.


(** ** Laws of the process monad *)

Lemma bind_ret_l {A B} (a : A) (k : A -> Proc B) : bind (ret a) k = k a.
Proof. unfold bind, ret. destruct (k a); reflexivity. Qed.

Lemma bind_exited {A B} (t : list Event) (c : Z) (k : A -> Proc B) :
  bind (t, Exited c) k = (t, Exited c).
Proof. reflexivity. Qed.

Lemma bind_assoc {A B C} (m : Proc A) (f : A -> Proc B) (g : B -> Proc C) :
  bind (bind m f) g = bind m (fun x => bind (f x) g).
Proof.
  destruct m as [t [a|c|msg]]; cbn; [|reflexivity|reflexivity].
  destruct (f a) as [t1 [b|c|msg]]; cbn.
  - destruct (g b) as [t2 s2]. now rewrite app_assoc.
  - reflexivity.
  - reflexivity.
Qed.

Lemma check_group_one (g : string) : check_group g 1 = ret tt.
Proof. reflexivity. Qed.

Lemma check_group_fails (g : string) (n : nat) :
  n <> 1%nat -> exists msg, check_group g n = ([EvStderr msg], Exited USAGE_CODE).
Proof.
  intros Hn. destruct n as [|[|n]].
  - eexists. reflexivity.
  - congruence.
  - eexists. reflexivity.
Qed.

Lemma stderr_only_trace (msg : string) : no_keystore_call [EvStderr msg].
Proof. intros e [<- | []]. reflexivity. Qed.

(** A rejected key group stops the process inside [CliArgs::parse()]. *)
Lemma build_bad_group_exits (raw : RawArgs) :
  raw_meta raw = NoMeta ->
  (supplied_count (raw_ecdsa_key raw) <> 1%nat \/ supplied_count (raw_bls_key raw) <> 1%nat) ->
  forall B (k : CliArgs -> Proc B),
    exists msg, bind (build raw) k = ([EvStderr msg], Exited USAGE_CODE).
Proof.
  intros Hm Hbad B k. unfold build, cli_parse. rewrite Hm, !bind_assoc.
  destruct (Nat.eq_dec (supplied_count (raw_ecdsa_key raw)) 1) as [He|He].
  - destruct Hbad as [Hbad|Hbad]; [contradiction|].
    destruct (check_group_fails "BlsKey" _ Hbad) as [msg Hmsg].
    exists msg. rewrite He, check_group_one, bind_ret_l, Hmsg.
    reflexivity.
  - destruct (check_group_fails "EcdsaKey" _ He) as [msg Hmsg].
    exists msg. rewrite Hmsg. reflexivity.
Qed.

(** Accepted key groups: parsing returns the arguments clap filled in. *)
Lemma cli_parse_ok (raw : RawArgs) :
  raw_meta raw = NoMeta ->
  supplied_count (raw_ecdsa_key raw) = 1%nat -> supplied_count (raw_bls_key raw) = 1%nat ->
  cli_parse raw = ret (args_of raw).
Proof. intros Hm He Hb. unfold cli_parse. rewrite Hm, He, Hb. reflexivity. Qed.

Lemma build_parse_ok (raw : RawArgs) :
  raw_meta raw = NoMeta ->
  supplied_count (raw_ecdsa_key raw) = 1%nat -> supplied_count (raw_bls_key raw) = 1%nat ->
  build raw = bind (build_checks (args_of raw)) (fun _ => ret (args_of raw)).
Proof.
  intros Hm He Hb. unfold build. rewrite (cli_parse_ok raw Hm He Hb), bind_ret_l. reflexivity.
Qed.

(** What a successful [CliArgs::parse()] tells about its input. *)
Lemma cli_parse_done (raw : RawArgs) (t : list Event) (args : CliArgs) :
  cli_parse raw = (t, Done args) ->
  raw_meta raw = NoMeta /\ supplied_count (raw_ecdsa_key raw) = 1%nat
  /\ supplied_count (raw_bls_key raw) = 1%nat /\ t = [] /\ args = args_of raw.
Proof.
  unfold cli_parse. destruct (raw_meta raw); try discriminate.
  destruct (Nat.eq_dec (supplied_count (raw_ecdsa_key raw)) 1) as [He|He].
  - destruct (Nat.eq_dec (supplied_count (raw_bls_key raw)) 1) as [Hb|Hb].
    + rewrite He, Hb. cbn. intros H. inversion H. auto.
    + destruct (check_group_fails "BlsKey" _ Hb) as [msg Hmsg].
      rewrite He, check_group_one, bind_ret_l, Hmsg. discriminate.
  - destruct (check_group_fails "EcdsaKey" _ He) as [msg Hmsg].
    rewrite Hmsg. discriminate.
Qed.

Lemma build_after_parse (raw : RawArgs) (t : list Event) (args : CliArgs) :
  cli_parse raw = (t, Done args) ->
  build raw = bind (build_checks args) (fun _ => ret args).
Proof.
  intros H. destruct (cli_parse_done raw t args H) as (Hm & He & Hb & -> & ->).
  apply build_parse_ok; assumption.
Qed.


(** ** Properties of the resolver *)

(** The ephemeral branch of [get_keystore]. *)
Lemma get_keystore_random {K E} (r : K + E) fp fs path content password :
  get_keystore r fp fs path content true password = ([EvKeystore CallRandom], Done r).
Proof. destruct path, content; reflexivity. Qed.

Section ResolverFacts.

Context {Keystore KeystoreError : Type}.
Variable ks_random : Keystore + KeystoreError.
Variable ks_from_path : PathBuf -> option string -> Keystore + KeystoreError.
Variable ks_from_string : string -> option string -> Keystore + KeystoreError.

Let resolve := get_keystore ks_random ks_from_path ks_from_string.

(** C1: for every combination of path, inline content, ephemeral flag and
    password, [get_keystore] takes the first matching strategy in the order
    ephemeral, file path, inline content, exactly as the priority order
    [resolve_keystore_spec] states it, also when several sources are set. *)
Theorem get_keystore_priority_order :
  forall path content is_random password,
    get_keystore ks_random ks_from_path ks_from_string path content is_random password
    = resolve_keystore_spec ks_random ks_from_path ks_from_string
        path content is_random password.
Proof. intros [p|] [c|] [|] pw; reflexivity. Qed.

(** C4: [get_keystore] panics exactly when no path, no inline content and no
    ephemeral flag are given; when exactly one source is populated it never
    reaches the panic. *)
Theorem get_keystore_panic_iff_no_source :
  forall path content is_random password,
    ((exists t msg, resolve path content is_random password = (t, Panicked msg))
       <-> (path = None /\ content = None /\ is_random = false))
    /\ (sources_count path content is_random = 1%nat ->
        forall t msg, resolve path content is_random password <> (t, Panicked msg)).
Proof.
  unfold resolve.
  intros [p|] [c|] [|] pw; cbn; split;
    try (split; [intros (t & msg & H); discriminate H
                | intros (H1 & H2 & H3); discriminate]);
    try (intros Hn t msg H; discriminate H);
    try (intros Hn; discriminate Hn).
  split; [intros _; auto | intros _; do 2 eexists; reflexivity].
Qed.

(** C5: with the ephemeral flag set, the outcome of [get_keystore] does not
    depend on the password, the path or the inline content: it always makes
    the single call [EncodedKeystore::random()] and returns its result. *)
Theorem ephemeral_ignores_password_and_sources :
  forall p1 c1 pw1 p2 c2 pw2,
    resolve p1 c1 true pw1 = resolve p2 c2 true pw2
    /\ resolve p1 c1 true pw1 = ([EvKeystore CallRandom], Done ks_random).
Proof.
  unfold resolve. intros p1 c1 pw1 p2 c2 pw2.
  rewrite !get_keystore_random. split; reflexivity.
Qed.

(** C6: with a path and no ephemeral flag, [get_keystore] makes only the call
    [from_path(path, password)] and returns its result, an error included,
    unchanged; [from_string] is never called, whatever the inline content. *)
Theorem file_source_delegates_only_to_from_path :
  forall p content password,
    resolve (Some p) content false password
      = ([EvKeystore (CallFromPath p password)], Done (ks_from_path p password))
    /\ (forall s pw', ~ In (EvKeystore (CallFromString s pw'))
                          (fst (resolve (Some p) content false password)))
    /\ (forall e, ks_from_path p password = inr e ->
        snd (resolve (Some p) content false password) = Done (inr e)).
Proof.
  unfold resolve. intros p [c|] pw; cbn; repeat split;
    try (intros s pw' [H|[]]; discriminate H);
    intros e He; rewrite He; reflexivity.
Qed.

(** C8: on the file and inline strategies the password reaches
    [from_path] / [from_string] exactly as it was given, for every password,
    an absent one ([None]) and an empty one included: nothing is substituted. *)
Theorem password_reaches_provider_unmodified :
  forall p content c password,
    resolve (Some p) content false password
      = ([EvKeystore (CallFromPath p password)], Done (ks_from_path p password))
    /\ resolve None (Some c) false password
      = ([EvKeystore (CallFromString c password)], Done (ks_from_string c password)).
Proof. unfold resolve. intros p [c'|] c pw; split; reflexivity. Qed.

End ResolverFacts.

(** ** Properties of [CliArgs::parse] and [CliArgs::build] *)

(** [build] on inputs whose key groups clap accepts. *)
Lemma build_valid_cases (raw : RawArgs) :
  raw_meta raw = NoMeta ->
  supplied_count (raw_ecdsa_key raw) = 1%nat -> supplied_count (raw_bls_key raw) = 1%nat ->
  build raw =
    if negb (raw_chain_id raw =? ANVIL_HARDHAT) then
      if is_testnet (raw_command raw) then
        ([EvStderr ("error: " ++ "testnet command is only available with anvil testnet `--chain-id=31337`")],
         Exited USAGE_CODE)
      else
        (if flag_value (raw_ephemeral_key (raw_ecdsa_key raw))
            || flag_value (raw_ephemeral_key (raw_bls_key raw))
         then [EvWarn "!!! Runing operator with epehemeral keys !!!"] else [],
         Done (args_of raw))
    else ([], Done (args_of raw)).
Proof.
  intros Hm He Hb. rewrite (build_parse_ok raw Hm He Hb). unfold build_checks. cbn.
  destruct (raw_chain_id raw =? ANVIL_HARDHAT), (is_testnet (raw_command raw)),
    (flag_value (raw_ephemeral_key (raw_ecdsa_key raw))
     || flag_value (raw_ephemeral_key (raw_bls_key raw)));
    reflexivity.
Qed.

(** C2 (the code departs from it): clap's key-group check counts supplied
    arguments, and an ephemeral flag supplied through its environment
    variable with the value [false] counts as supplied while it is not an
    active source.  In general the supplied count exceeds the count of active
    sources by one exactly for such a flag.  Concretely, with only
    [ECDSA_EPHEMERAL_KEY=false] for the ECDSA group, [build] returns a
    configuration whose ECDSA group has no active source, and resolving that
    key then panics; with [--ecdsa-key-file] and [ECDSA_EPHEMERAL_KEY=false],
    a group with exactly one active source, [build] exits with the usage
    error. *)
Theorem key_group_env_false_flag_defeats_check :
  (forall g : RawKeyGroup,
     supplied_count g
     = (sources_count (raw_key_file g) (raw_key_json g) (flag_value (raw_ephemeral_key g))
        + match raw_ephemeral_key g with Some false => 1 | _ => 0 end)%nat)
  /\ (let raw := sample_raw 1 env_false_group (file_group "/keys/bls.json") None NoMeta in
      build raw = ([], Done (args_of raw))
      /\ ecdsa_sources (ecdsa_key (args_of raw)) = 0%nat
      /\ get_ecdsa_keystore stub_random stub_from_path stub_from_string (args_of raw)
         = ([], Panicked "one of the key args must be set"))
  /\ (let raw := sample_raw 1 (mkRawKeyGroup (Some "/keys/ecdsa.json") None (Some false))
                   (file_group "/keys/bls.json") None NoMeta in
      ecdsa_sources (parse_EcdsaKey (raw_ecdsa_key raw)) = 1%nat
      /\ build raw
         = ([EvStderr "error: an argument of the group <EcdsaKey> cannot be used with another one"],
            Exited USAGE_CODE)).
Proof.
  split; [|split; cbn; repeat split; reflexivity].
  intros [f j [[|]|]]; destruct f, j; reflexivity.
Qed.

(** C3: for every input clap parses successfully, off the anvil chain (chain
    id other than 31337) the [Testnet] command makes [build] print a usage
    error on standard error and exit with a non-zero code, before any
    keystore call, whatever would follow it; on chain 31337 the [Testnet]
    command is accepted: [build] returns the parsed arguments without any
    output. *)
Theorem testnet_command_gated_by_chain_id :
  (forall (raw : RawArgs) t (args : CliArgs) stake,
     cli_parse raw = (t, Done args) ->
     chain_id args <> ANVIL_HARDHAT -> command args = Some (Testnet stake) ->
     forall B (k : CliArgs -> Proc B),
       exists t', bind (build raw) k = (t', Exited USAGE_CODE)
                  /\ USAGE_CODE <> 0 /\ no_keystore_call t'
                  /\ exists msg, In (EvStderr msg) t')
  /\ (forall (raw : RawArgs) t (args : CliArgs) stake,
        cli_parse raw = (t, Done args) ->
        chain_id args = ANVIL_HARDHAT -> command args = Some (Testnet stake) ->
        build raw = ([], Done args)).
Proof.
  split.
  - intros raw t args stake Hp Hc Hcmd B k.
    rewrite (build_after_parse raw t args Hp). unfold build_checks.
    rewrite (proj2 (Z.eqb_neq _ _) Hc), Hcmd. cbn.
    eexists. split; [reflexivity|]. split; [discriminate|]. split.
    + apply stderr_only_trace.
    + eexists. left. reflexivity.
  - intros raw t args stake Hp Hc Hcmd.
    rewrite (build_after_parse raw t args Hp). unfold build_checks. rewrite Hc. reflexivity.
Qed.

(** C7 (as the code does it): for every input clap parses successfully, off
    the anvil chain and with the ECDSA or the BLS group selecting the
    ephemeral key, [build] emits the ephemeral-key warning and returns the
    parsed arguments when the command is not [Testnet], and each ephemeral
    group then resolves through [EncodedKeystore::random()]; when the command
    is [Testnet], [build] exits with the usage error and no warning is
    emitted. *)
Theorem ephemeral_off_anvil_warns_and_proceeds :
  forall (raw : RawArgs) t (args : CliArgs),
    cli_parse raw = (t, Done args) ->
    chain_id args <> ANVIL_HARDHAT ->
    ecdsa_ephemeral_key (ecdsa_key args) || bls_ephemeral_key (bls_key args) = true ->
    (is_testnet (command args) = false ->
       build raw = ([EvWarn "!!! Runing operator with epehemeral keys !!!"], Done args)
       /\ (forall K E (r : K + E) fp fs,
             ecdsa_ephemeral_key (ecdsa_key args) = true ->
             get_ecdsa_keystore r fp fs args = ([EvKeystore CallRandom], Done r))
       /\ (forall K E (r : K + E) fp fs,
             bls_ephemeral_key (bls_key args) = true ->
             get_bls_keystore r fp fs args = ([EvKeystore CallRandom], Done r)))
    /\ (is_testnet (command args) = true ->
          build raw
          = ([EvStderr ("error: " ++ "testnet command is only available with anvil testnet `--chain-id=31337`")],
             Exited USAGE_CODE)
          /\ forall msg, ~ In (EvWarn msg) (fst (build raw))).
Proof.
  intros raw t args Hp Hc Heph.
  assert (Hb : build raw = bind (build_checks args) (fun _ => ret args))
    by exact (build_after_parse raw t args Hp).
  split.
  - intros Hcmd. repeat split.
    + rewrite Hb. unfold build_checks.
      rewrite (proj2 (Z.eqb_neq _ _) Hc), Hcmd, Heph. reflexivity.
    + intros K E r fp fs Hk. unfold get_ecdsa_keystore. rewrite Hk.
      apply get_keystore_random.
    + intros K E r fp fs Hk. unfold get_bls_keystore. rewrite Hk.
      apply get_keystore_random.
  - intros Hcmd.
    assert (Hx : build raw
                 = ([EvStderr ("error: " ++ "testnet command is only available with anvil testnet `--chain-id=31337`")],
                    Exited USAGE_CODE)).
    { rewrite Hb. unfold build_checks. rewrite (proj2 (Z.eqb_neq _ _) Hc), Hcmd. reflexivity. }
    split; [exact Hx|]. rewrite Hx. intros msg [H|[]]. discriminate H.
Qed.


(** ** Properties of the serialization *)

(** C9: the serialized form of [CliArgs] does not depend on the ECDSA and
    BLS key passwords: two configurations that differ only in those two
    fields serialize identically (both fields carry [#[serde(skip)]]). *)
Theorem serialize_independent_of_passwords :
  forall (a : CliArgs) (e1 b1 e2 b2 : option string),
    serialize_CliArgs (with_passwords a e1 b1) = serialize_CliArgs (with_passwords a e2 b2).
Proof. intros a e1 b1 e2 b2. reflexivity. Qed.

(** C10: the serialized form of [CliArgs] does not depend on the inline key
    blobs [ecdsa_key_json] and [bls_key_json] either. *)
Theorem serialize_independent_of_inline_keys :
  forall (a : CliArgs) (e1 b1 e2 b2 : option string),
    serialize_CliArgs (with_key_json a e1 b1) = serialize_CliArgs (with_key_json a e2 b2).
Proof. intros a e1 b1 e2 b2. reflexivity. Qed.

(** ** Concrete instances *)

(** A non-anvil chain, both keys given by [--ecdsa-ephemeral-key] and
    [--bls-ephemeral-key], and the [Testnet] command. *)
Definition testnet_ephemeral_raw : RawArgs :=
  sample_raw 1 ephemeral_group ephemeral_group (Some (Testnet 100)) NoMeta.

(** C7 fails as stated: clap accepts this input, and off the anvil chain
    with ephemeral keys and the [Testnet] command [build] exits with the
    usage error; it neither warns nor returns the configuration. *)
Lemma ephemeral_testnet_off_anvil_exits :
  cli_parse testnet_ephemeral_raw = ([], Done (args_of testnet_ephemeral_raw))
  /\ chain_id (args_of testnet_ephemeral_raw) <> ANVIL_HARDHAT
  /\ ecdsa_ephemeral_key (ecdsa_key (args_of testnet_ephemeral_raw)) = true
  /\ build testnet_ephemeral_raw
     = ([EvStderr "error: testnet command is only available with anvil testnet `--chain-id=31337`"],
        Exited USAGE_CODE)
  /\ ~ (exists t a, build testnet_ephemeral_raw = (t, Done a))
  /\ ~ (exists msg, In (EvWarn msg) (fst (build testnet_ephemeral_raw))).
Proof.
  split; [reflexivity|]. split; [cbv; discriminate|]. split; [reflexivity|].
  split; [reflexivity|]. split.
  - intros (t & a & H). discriminate H.
  - intros (msg & [H|[]]). discriminate H.
Qed.

Lemma testnet_command_gated_by_chain_id_witness :
  (exists t, bind (build (sample_raw 1 (file_group "/keys/ecdsa.json") (file_group "/keys/bls.json")
                            (Some (Testnet 100)) NoMeta))
                  (fun a => get_ecdsa_keystore stub_random stub_from_path stub_from_string a)
             = (t, Exited USAGE_CODE) /\ USAGE_CODE <> 0 /\ no_keystore_call t
             /\ exists msg, In (EvStderr msg) t)
  /\ build (sample_raw 31337 env_false_group ephemeral_group (Some (Testnet 500)) NoMeta)
     = ([], Done (args_of (sample_raw 31337 env_false_group ephemeral_group
                            (Some (Testnet 500)) NoMeta))).
Proof.
  split.
  - apply (proj1 testnet_command_gated_by_chain_id
             (sample_raw 1 (file_group "/keys/ecdsa.json") (file_group "/keys/bls.json")
                (Some (Testnet 100)) NoMeta) []
             (args_of (sample_raw 1 (file_group "/keys/ecdsa.json") (file_group "/keys/bls.json")
                         (Some (Testnet 100)) NoMeta)) 100);
      [reflexivity | cbv; discriminate | reflexivity].
  - apply (proj2 testnet_command_gated_by_chain_id
             (sample_raw 31337 env_false_group ephemeral_group (Some (Testnet 500)) NoMeta) []
             (args_of (sample_raw 31337 env_false_group ephemeral_group (Some (Testnet 500)) NoMeta))
             500);
      reflexivity.
Defined.


Lemma get_keystore_panic_iff_no_source_witness :
  sources_count (Some "/k") None false = 1%nat
  /\ (forall t msg, get_keystore stub_random stub_from_path stub_from_string
                      (Some "/k") None false (Some "secret") <> (t, Panicked msg))
  /\ (exists t msg, get_keystore stub_random stub_from_path stub_from_string
                      None None false None = (t, Panicked msg)).
Proof.
  split; [reflexivity|]. split.
  - apply (proj2 (get_keystore_panic_iff_no_source stub_random stub_from_path stub_from_string
                    (Some "/k") None false (Some "secret"))).
    reflexivity.
  - apply (proj2 (proj1 (get_keystore_panic_iff_no_source stub_random stub_from_path
                           stub_from_string None None false None))).
    split; [reflexivity | split; reflexivity].
Defined.

Lemma file_source_delegates_only_to_from_path_witness :
  stub_from_path "/keys/ecdsa.json" (Some "wrong") = inr Decrypt
  /\ snd (get_keystore stub_random stub_from_path stub_from_string
            (Some "/keys/ecdsa.json") (Some "blob") false (Some "wrong"))
     = Done (inr Decrypt).
Proof.
  split; [reflexivity|].
  apply (proj2 (proj2 (file_source_delegates_only_to_from_path stub_random stub_from_path
                         stub_from_string "/keys/ecdsa.json" (Some "blob") (Some "wrong")))).
  reflexivity.
Defined.

Lemma ephemeral_off_anvil_warns_and_proceeds_witness :
  build (sample_raw 1 ephemeral_group env_false_group (Some PrintStatus) NoMeta)
    = ([EvWarn "!!! Runing operator with epehemeral keys !!!"],
       Done (args_of (sample_raw 1 ephemeral_group env_false_group (Some PrintStatus) NoMeta)))
  /\ get_ecdsa_keystore stub_random stub_from_path stub_from_string
       (args_of (sample_raw 1 ephemeral_group env_false_group (Some PrintStatus) NoMeta))
     = ([EvKeystore CallRandom], Done stub_random)
  /\ ~ In (EvWarn "!!! Runing operator with epehemeral keys !!!")
         (fst (build (sample_raw 1 ephemeral_group (file_group "/keys/bls.json")
                        (Some (Testnet 100)) NoMeta))).
Proof.
  destruct (ephemeral_off_anvil_warns_and_proceeds
              (sample_raw 1 ephemeral_group env_false_group (Some PrintStatus) NoMeta) []
              (args_of (sample_raw 1 ephemeral_group env_false_group (Some PrintStatus) NoMeta)))
    as [Hw _]; [reflexivity | cbv; discriminate | reflexivity |].
  destruct (ephemeral_off_anvil_warns_and_proceeds
              (sample_raw 1 ephemeral_group (file_group "/keys/bls.json") (Some (Testnet 100)) NoMeta)
              []
              (args_of (sample_raw 1 ephemeral_group (file_group "/keys/bls.json")
                          (Some (Testnet 100)) NoMeta)))
    as [_ Ht]; [reflexivity | cbv; discriminate | reflexivity |].
  destruct (Hw eq_refl) as (Hb & He & _).
  split; [exact Hb|]. split; [apply He; reflexivity|].
  exact (proj2 (Ht eq_refl) _).
Defined.

(** ** Further properties of [build] and the resolvers *)

Lemma bind_ret_r {A} (m : Proc A) : bind m ret = m.
Proof. destruct m as [t [a|c|msg]]; cbn; [rewrite app_nil_r|..]; reflexivity. Qed.

Lemma build_invalid_exits (raw : RawArgs) :
  raw_meta raw = NoMeta ->
  (supplied_count (raw_ecdsa_key raw) <> 1%nat \/ supplied_count (raw_bls_key raw) <> 1%nat) ->
  exists msg, build raw = ([EvStderr msg], Exited USAGE_CODE).
Proof.
  intros Hm Hbad. destruct (build_bad_group_exits raw Hm Hbad CliArgs ret) as [msg H].
  exists msg. rewrite bind_ret_r in H. exact H.
Qed.

(** [--help] and [--version] print to standard output and exit with success. *)
Lemma build_meta_exits (raw : RawArgs) :
  raw_meta raw <> NoMeta ->
  exists msg, build raw = ([EvStdout msg], Exited SUCCESS_CODE).
Proof.
  intros Hm. unfold build, cli_parse.
  destruct (raw_meta raw); [contradiction | eexists; reflexivity | eexists; reflexivity].
Qed.

(** The three ways an input can go through [build]. *)
Lemma build_cases (raw : RawArgs) :
  raw_meta raw <> NoMeta
  \/ (raw_meta raw = NoMeta
      /\ (supplied_count (raw_ecdsa_key raw) <> 1%nat \/ supplied_count (raw_bls_key raw) <> 1%nat))
  \/ (raw_meta raw = NoMeta
      /\ supplied_count (raw_ecdsa_key raw) = 1%nat /\ supplied_count (raw_bls_key raw) = 1%nat).
Proof.
  destruct (raw_meta raw) eqn:Hm; [|left; discriminate | left; discriminate].
  right. destruct (Nat.eq_dec (supplied_count (raw_ecdsa_key raw)) 1) as [He|He];
    [destruct (Nat.eq_dec (supplied_count (raw_bls_key raw)) 1) as [Hb|Hb]|]; auto.
Qed.

(** [build] never panics and never calls the keystore provider.  When it
    returns, it returns the arguments clap filled in, and its only output is
    at most the ephemeral-key warning.  When it stops, it exits with clap's
    success code after [--help] or [--version], and with clap's usage code
    otherwise. *)
Theorem build_outcomes :
  forall raw : RawArgs,
    no_keystore_call (fst (build raw))
    /\ match build raw with
       | (t, Done a) =>
           a = args_of raw
           /\ (t = [] \/ t = [EvWarn "!!! Runing operator with epehemeral keys !!!"])
       | (_, Exited c) =>
           (raw_meta raw <> NoMeta /\ c = SUCCESS_CODE)
           \/ (raw_meta raw = NoMeta /\ c = USAGE_CODE)
       | (_, Panicked _) => False
       end.
Proof.
  intros raw.
  destruct (build_cases raw) as [Hm | [[Hm Hbad] | (Hm & He & Hb)]].
  - destruct (build_meta_exits raw Hm) as [msg ->].
    split; [intros e [<-|[]]; reflexivity | left; auto].
  - destruct (build_invalid_exits raw Hm Hbad) as [msg ->].
    split; [apply stderr_only_trace | right; auto].
  - rewrite (build_valid_cases raw Hm He Hb).
    destruct (raw_chain_id raw =? ANVIL_HARDHAT), (is_testnet (raw_command raw)),
      (flag_value (raw_ephemeral_key (raw_ecdsa_key raw))
       || flag_value (raw_ephemeral_key (raw_bls_key raw)));
      cbn; (split; [intros e He'; repeat destruct He' as [<-|He']; try reflexivity; contradiction|]);
      auto.
Qed.



(** What [build] returning tells about its input. *)
Lemma build_done (raw : RawArgs) (t : list Event) (a : CliArgs) :
  build raw = (t, Done a) ->
  raw_meta raw = NoMeta /\ supplied_count (raw_ecdsa_key raw) = 1%nat
  /\ supplied_count (raw_bls_key raw) = 1%nat /\ a = args_of raw.
Proof.
  intros H. destruct (build_outcomes raw) as [_ Hout]. rewrite H in Hout.
  destruct Hout as [-> _].
  destruct (build_cases raw) as [Hm | [[Hm Hbad] | (Hm & He & Hb)]]; auto.
  - destruct (build_meta_exits raw Hm) as [msg Hx]. rewrite Hx in H. discriminate H.
  - destruct (build_invalid_exits raw Hm Hbad) as [msg Hx]. rewrite Hx in H. discriminate H.
Qed.

(** Resolution of a key group clap accepted: it panics exactly when the
    group's only supplied argument is an ephemeral flag with the value
    [false]; otherwise it makes one provider call and returns its result. *)
Lemma resolve_accepted_group {K E} (r : K + E) fp fs (g : RawKeyGroup) password :
  supplied_count g = 1%nat ->
  ((exists t msg, get_keystore r fp fs (raw_key_file g) (raw_key_json g)
                    (flag_value (raw_ephemeral_key g)) password = (t, Panicked msg))
   <-> g = env_false_group)
  /\ (g <> env_false_group ->
      exists c, get_keystore r fp fs (raw_key_file g) (raw_key_json g)
                  (flag_value (raw_ephemeral_key g)) password
                = ([EvKeystore c], Done (run_call r fp fs c))).
Proof.
  destruct g as [[p|] [j|] [[|]|]]; cbn; intros H; try discriminate H.
  - split; [split; [intros (t & msg & Hx); discriminate Hx | intros Hx; discriminate Hx]|].
    intros _. eexists (CallFromPath _ _). reflexivity.
  - split; [split; [intros (t & msg & Hx); discriminate Hx | intros Hx; discriminate Hx]|].
    intros _. eexists (CallFromString _ _). reflexivity.
  - split; [split; [intros (t & msg & Hx); discriminate Hx | intros Hx; discriminate Hx]|].
    intros _. exists CallRandom. reflexivity.
  - split; [split; [intros _; reflexivity | intros _; do 2 eexists; reflexivity]|].
    intros Hx. contradiction.
Qed.

(** For every configuration [build] returns, resolving the ECDSA key panics
    exactly when the ECDSA group was given only by [ECDSA_EPHEMERAL_KEY=false],
    and otherwise makes one provider call and returns its result; the same
    holds for the BLS key and [BLS_EPHEMERAL_KEY=false]. *)
Theorem built_config_resolution :
  forall raw t a, build raw = (t, Done a) ->
  forall K E (r : K + E) fp fs,
    ((exists t' msg, get_ecdsa_keystore r fp fs a = (t', Panicked msg))
       <-> raw_ecdsa_key raw = env_false_group)
    /\ (raw_ecdsa_key raw <> env_false_group ->
        exists c, get_ecdsa_keystore r fp fs a = ([EvKeystore c], Done (run_call r fp fs c)))
    /\ ((exists t' msg, get_bls_keystore r fp fs a = (t', Panicked msg))
          <-> raw_bls_key raw = env_false_group)
    /\ (raw_bls_key raw <> env_false_group ->
        exists c, get_bls_keystore r fp fs a = ([EvKeystore c], Done (run_call r fp fs c))).
Proof.
  intros raw t a H K E r fp fs.
  destruct (build_done raw t a H) as (_ & He & Hb & ->).
  destruct (resolve_accepted_group r fp fs (raw_ecdsa_key raw) (raw_ecdsa_key_password raw) He)
    as [He1 He2].
  destruct (resolve_accepted_group r fp fs (raw_bls_key raw) (raw_bls_key_password raw) Hb)
    as [Hb1 Hb2].
  unfold get_ecdsa_keystore, get_bls_keystore. cbn.
  auto.
Qed.


(** ** Properties of the [StrategyManagerMockCalls] codec *)

(** Which variant a 4-byte prefix selects. *)
Definition kind_of_selector (b : list Z) : option CallKind :=
  find (fun k => if list_eq_dec Z.eq_dec (selector_bytes k) b then true else false)
    decode_order.

Lemma kind_of_selector_bytes (k : CallKind) : kind_of_selector (selector_bytes k) = Some k.
Proof. destruct k; vm_compute; reflexivity. Qed.

Lemma selector_bytes_inj (k k' : CallKind) : selector_bytes k = selector_bytes k' -> k = k'.
Proof.
  intros H. apply (f_equal kind_of_selector) in H.
  rewrite !kind_of_selector_bytes in H. congruence.
Qed.

Lemma selector_bytes_length (k : CallKind) : length (selector_bytes k) = 4%nat.
Proof. reflexivity. Qed.

Lemma decode_order_complete (k : CallKind) : In k decode_order.
Proof. destruct k; cbn; tauto. Qed.

Section CodecFacts.

Context {CallArgs : CallKind -> Type}.
Variable abi_encode_args : forall k, CallArgs k -> list Z.
Variable abi_decode_args : forall k, list Z -> option (CallArgs k).

Lemma call_decode_selector (k : CallKind) (data : list Z) (a : CallArgs k) :
  call_decode abi_decode_args k data = Some a ->
  (4 <= length data)%nat /\ firstn 4 data = selector_bytes k
  /\ abi_decode_args k (skipn 4 data) = Some a.
Proof.
  unfold call_decode. destruct (Nat.ltb_spec (length data) 4); [discriminate|].
  destruct (list_eq_dec Z.eq_dec (firstn 4 data) (selector_bytes k)); [|discriminate].
  auto.
Qed.

(** Once one container accepts the data, every other container rejects it:
    the selectors are pairwise distinct. *)
Lemma call_decode_unique (k k' : CallKind) (data : list Z) (a : CallArgs k) :
  call_decode abi_decode_args k data = Some a -> k' <> k ->
  call_decode abi_decode_args k' data = None.
Proof.
  intros Ha Hne. destruct (call_decode_selector k data a Ha) as (Hlen & Hsel & _).
  unfold call_decode. destruct (Nat.ltb (length data) 4); [reflexivity|].
  destruct (list_eq_dec Z.eq_dec (firstn 4 data) (selector_bytes k')) as [E|E];
    [|reflexivity].
  exfalso. apply Hne. apply selector_bytes_inj. congruence.
Qed.

Lemma decode_first_sound (ks : list CallKind) (data : list Z) (c : Calls CallArgs) :
  decode_first abi_decode_args ks data = inl c ->
  In (projT1 c) ks /\ call_decode abi_decode_args (projT1 c) data = Some (projT2 c).
Proof.
  induction ks as [|k ks IH]; cbn; [discriminate|].
  destruct (call_decode abi_decode_args k data) as [a|] eqn:E.
  - intros H. inversion H; subst. cbn. auto.
  - intros H. destruct (IH H). auto.
Qed.

Lemma decode_first_complete (ks : list CallKind) (data : list Z) (k : CallKind) (a : CallArgs k) :
  In k ks -> call_decode abi_decode_args k data = Some a ->
  decode_first abi_decode_args ks data = inl (existT _ k a).
Proof.
  intros Hin Ha. induction ks as [|k0 ks IH]; [destruct Hin|]. cbn.
  destruct (list_eq_dec Z.eq_dec (selector_bytes k0) (selector_bytes k)) as [E|E].
  - apply selector_bytes_inj in E. subst k0. rewrite Ha. reflexivity.
  - rewrite (call_decode_unique k k0 data a Ha ltac:(congruence)).
    destruct Hin as [->|Hin]; [contradiction|]. apply IH. exact Hin.
Qed.

Lemma decode_first_fails (ks : list CallKind) (data : list Z) :
  decode_first abi_decode_args ks data = inr InvalidData
  <-> (forall k, In k ks -> call_decode abi_decode_args k data = None).
Proof.
  induction ks as [|k ks IH]; cbn.
  - split; [intros _ k []|reflexivity].
  - destruct (call_decode abi_decode_args k data) as [a|] eqn:E.
    + split; [discriminate|]. intros H. rewrite (H k (or_introl eq_refl)) in E. discriminate.
    + rewrite IH. split.
      * intros H k' [<-|Hin]; auto.
      * intros H k' Hin. apply H. auto.
Qed.

(** [StrategyManagerMockCalls::decode] inverts [encode]: if the ABI coding
    of every container's fields round-trips, then decoding an encoded call
    gives back the same variant with the same container. *)
Theorem calls_decode_encode :
  (forall k a, abi_decode_args k (abi_encode_args k a) = Some a) ->
  forall c : Calls CallArgs,
    calls_decode abi_decode_args (calls_encode abi_encode_args c) = inl c.
Proof.
  intros Hrt [k a]. unfold calls_decode, calls_encode. cbn [projT1 projT2].
  apply decode_first_complete; [apply decode_order_complete|].
  unfold call_decode, call_encode, selector_bytes. cbn [length app firstn skipn].
  rewrite Hrt.
  destruct (list_eq_dec Z.eq_dec _ _) as [_|E]; [reflexivity|]. contradiction E. reflexivity.
Qed.

(** What [decode] accepts: whenever it returns a call, the data is at least
    four bytes long, starts with that variant's selector, and the rest
    decodes to that variant's container. *)
Theorem calls_decode_sound :
  forall (data : list Z) (c : Calls CallArgs),
    calls_decode abi_decode_args data = inl c ->
    (4 <= length data)%nat /\ firstn 4 data = selector_bytes (projT1 c)
    /\ abi_decode_args (projT1 c) (skipn 4 data) = Some (projT2 c).
Proof.
  intros data c H. destruct (decode_first_sound decode_order data c H) as [_ Hc].
  exact (call_decode_selector _ _ _ Hc).
Qed.

(** The order of the tests does not matter: whichever container accepts the
    data, [decode] returns that variant. *)
Theorem calls_decode_selects_accepting_variant :
  forall (data : list Z) (k : CallKind) (a : CallArgs k),
    call_decode abi_decode_args k data = Some a ->
    calls_decode abi_decode_args data = inl (existT _ k a).
Proof.
  intros data k a Ha. apply decode_first_complete; [apply decode_order_complete | exact Ha].
Qed.

(** [decode] fails with [InvalidData] exactly when every container rejects
    the data; in particular on data shorter than four bytes and on data
    whose first four bytes are no selector of the contract. *)
Theorem calls_decode_invalid_data :
  forall data : list Z,
    (calls_decode abi_decode_args data = inr InvalidData
     <-> forall k, call_decode abi_decode_args k data = None)
    /\ ((length data < 4)%nat \/ (forall k, firstn 4 data <> selector_bytes k) ->
        calls_decode abi_decode_args data = inr InvalidData).
Proof.
  intros data. unfold calls_decode. split.
  - rewrite decode_first_fails. split; intros H k; [apply H, decode_order_complete|auto].
  - intros Hbad. apply decode_first_fails. intros k _.
    destruct (call_decode abi_decode_args k data) as [a|] eqn:E; [|reflexivity].
    destruct (call_decode_selector k data a E) as (Hlen & Hsel & _).
    destruct Hbad as [Hbad|Hbad]; [lia|]. exfalso. exact (Hbad k Hsel).
Qed.

End CodecFacts.

(** ** Witnesses for the further properties *)

(** A concrete ABI coding: the fields of every container are raw bytes. *)
Definition raw_args (k : CallKind) : Type := list Z.
Definition raw_encode (k : CallKind) (a : raw_args k) : list Z := a.
Definition raw_decode (k : CallKind) (d : list Z) : option (raw_args k) := Some d.

Example pause_encoding :
  calls_encode raw_encode (existT raw_args Pause [7]) = [19; 100; 57; 221; 7].
Proof. reflexivity. Qed.

Lemma calls_decode_encode_witness :
  (forall k a, raw_decode k (raw_encode k a) = Some a)
  /\ calls_decode raw_decode (calls_encode raw_encode (existT raw_args Owner [1; 2]))
     = inl (existT raw_args Owner [1; 2]).
Proof.
  split; [intros; reflexivity|].
  apply calls_decode_encode. intros; reflexivity.
Defined.

Lemma calls_decode_sound_witness :
  calls_decode raw_decode [19; 100; 57; 221; 7] = inl (existT raw_args Pause [7])
  /\ firstn 4 [19; 100; 57; 221; 7] = selector_bytes Pause.
Proof.
  assert (H : calls_decode raw_decode [19; 100; 57; 221; 7] = inl (existT raw_args Pause [7]))
    by (vm_compute; reflexivity).
  split; [exact H|].
  exact (proj1 (proj2 (calls_decode_sound raw_decode _ _ H))).
Defined.

Lemma calls_decode_selects_accepting_variant_witness :
  call_decode raw_decode Unpause [250; 188; 28; 188] = Some []
  /\ calls_decode raw_decode [250; 188; 28; 188] = inl (existT raw_args Unpause []).
Proof.
  assert (H : call_decode raw_decode Unpause [250; 188; 28; 188] = Some [])
    by (vm_compute; reflexivity).
  split; [exact H|].
  exact (calls_decode_selects_accepting_variant raw_decode _ _ _ H).
Defined.

Lemma calls_decode_invalid_data_witness :
  (length [80; 255] < 4)%nat /\ calls_decode raw_decode [80; 255] = inr InvalidData.
Proof.
  split; [cbn; lia|].
  apply (proj2 (calls_decode_invalid_data raw_decode [80; 255])).
  left. cbn. lia.
Defined.


Lemma built_config_resolution_witness :
  build (sample_raw 1 env_false_group (file_group "/keys/bls.json") None NoMeta)
    = ([], Done (args_of (sample_raw 1 env_false_group (file_group "/keys/bls.json") None NoMeta)))
  /\ (exists t' msg, get_ecdsa_keystore stub_random stub_from_path stub_from_string
                       (args_of (sample_raw 1 env_false_group (file_group "/keys/bls.json")
                                   None NoMeta))
                     = (t', Panicked msg))
  /\ (exists c, get_bls_keystore stub_random stub_from_path stub_from_string
                  (args_of (sample_raw 1 env_false_group (file_group "/keys/bls.json") None NoMeta))
                = ([EvKeystore c], Done (run_call stub_random stub_from_path stub_from_string c))).
Proof.
  assert (H : build (sample_raw 1 env_false_group (file_group "/keys/bls.json") None NoMeta)
              = ([], Done (args_of (sample_raw 1 env_false_group (file_group "/keys/bls.json")
                                      None NoMeta)))) by reflexivity.
  destruct (built_config_resolution _ _ _ H _ _ stub_random stub_from_path stub_from_string)
    as (He & _ & _ & Hb).
  split; [exact H|]. split.
  - apply He. reflexivity.
  - apply Hb. discriminate.
Defined.
